(** * flutter_v2ray_client_desktop: the native plugin shims

    A shallow embedding of the two platform plugins
    - [windows/flutter_v2ray_client_desktop_plugin.cpp]
    - [linux/flutter_v2ray_client_desktop_plugin.cc]
    and the properties of the architecture resolver and of the
    method-channel handler.

    The C preprocessor's [#if defined(..)] chains are functions of the set
    of macros the compiler predefines; [__FILE__] is a build parameter of
    the Linux translation unit; the replies a handler sends are appended to
    an explicit outbox that is threaded through the call. *)

From Stdlib Require Import ZArith Ascii String List Lia.
From stdpp Require Import base decidable gmap strings.

Import ListNotations.
Local Open Scope string_scope.

(** ** The preprocessor *)

Module Cpp.

(** [defined m env] is the preprocessor operator [defined(m)] in a
    translation unit whose predefined macros are [env]. *)
Definition defined (m : string) (env : gset string) : bool :=
  bool_decide (m ∈ env).

End Cpp.

(** ** Architecture classes *)

(** The closed set of the data model. *)
Inductive ArchitectureClass : Type :=
| X86_64
| X86_32
| ARM_64
| ARM_32
| OtherArchitecture.

(** The labels of the data model, as the strings the code returns. *)
Definition labels : list string := ["64"; "32"; "arm64"; "arm32"; "unknown"].

(** The documented label of each class (the priority list of the contract
    of the resolver). *)
Definition documented_label (t : ArchitectureClass) : string :=
  match t with
  | X86_64 => "64"
  | X86_32 => "32"
  | ARM_64 => "arm64"
  | ARM_32 => "arm32"
  | OtherArchitecture => "unknown"
  end.

Section Targets.

(** Modelled from the spec: the table of macros a compiler predefines for
    each target is not part of the repository.  [arch_macro] pairs each
    class of the contract's priority list with the macro the source tests
    at the same position; [tested] lists the macros the source tests. *)
Variable arch_macro : ArchitectureClass -> option string.
Variable tested : list string.

(** [targets env t]: the translation unit whose predefined macros are
    [env] is built for class [t]: of the macros the source tests, exactly
    the one of [t] is defined (none for an unlisted target). *)
Definition targets (env : gset string) (t : ArchitectureClass) : Prop :=
  Forall (fun m => m ∈ env <-> arch_macro t = Some m) tested.

#[global] Instance targets_dec env t : Decision (targets env t).
Proof. unfold targets. apply Forall_dec. intro m. apply _. Defined.

End Targets.

(** ** The resolver as the specification words it *)

Module Spec.

(** The two path policies of the contract of [ResolveResourcesPath]. *)
Inductive PathPolicy : Type :=
| WorkingDirectoryRelative
| AnchoredAt (plugin_dir : string).

(** "a path string formed by concatenating a fixed resources directory
    segment with the label as a path component". *)
Definition ResolveResourcesPath (policy : PathPolicy) (label : string) : string :=
  match policy with
  | WorkingDirectoryRelative => "resources" ++ "/" ++ label
  | AnchoredAt plugin_dir => plugin_dir ++ "/" ++ "resources" ++ "/" ++ label
  end.

End Spec.

(** ** Bytes and paths *)

(** A character as the [unsigned char] the C library compares. *)
Definition uchar (c : ascii) : Z := Z.of_N (N_of_ascii c).

Definition NUL : ascii := Ascii.zero.

(** A [const char*] is modelled by the bytes it points to; it is a
    well-formed C string when none of them is the terminator. *)
Fixpoint c_string (s : string) : bool :=
  match s with
  | EmptyString => true
  | String c s' => negb (Ascii.eqb c NUL) && c_string s'
  end.

(** The segments of a path: the pieces between its separators. *)
Fixpoint path_segments (s : string) : list string :=
  match s with
  | EmptyString => [""]
  | String c s' =>
      if Ascii.eqb c "/" then "" :: path_segments s'
      else match path_segments s' with
           | seg :: rest => String c seg :: rest
           | [] => [String c ""]
           end
  end.

(** The last [n] elements of a list. *)
Definition final_segments {A} (n : nat) (l : list A) : list A :=
  skipn (length l - n) l.

(** A path without separator. *)
Fixpoint separator_free (s : string) : bool :=
  match s with
  | EmptyString => true
  | String c s' => negb (Ascii.eqb c "/") && separator_free s'
  end.

(** ** Windows *)

Module Windows.

(** [flutter::EncodableValue], the variants the channel's standard codec
    carries that matter here. *)
Inductive EncodableValue : Type :=
| EncodableNull
| EncodableBool (b : bool)
| EncodableInt (n : Z)
| EncodableString (s : string).

(** [flutter::MethodCall<EncodableValue>]. *)
Record MethodCall : Type := {
  method_name : string;
  arguments : EncodableValue
}.

(** What a [flutter::MethodResult] can be told. *)
Inductive Reply : Type :=
| ReplySuccess (value : EncodableValue)
| ReplyError (code message : string) (details : EncodableValue)
| ReplyNotImplemented.

(** A [flutter::MethodResult]: the replies it has been told, oldest
    first. *)
Definition MethodResult : Type := list Reply.

Definition Success (value : EncodableValue) (result : MethodResult) : MethodResult :=
  (result ++ [ReplySuccess value])%list.

Definition NotImplemented (result : MethodResult) : MethodResult :=
  (result ++ [ReplyNotImplemented])%list.

(** [std::char_traits<char>::compare] over the common prefix (the C++
    library is not part of the repository; written after the standard). *)
Fixpoint traits_compare (s t : string) : Z :=
  match s, t with
  | String a s', String b t' =>
      if Ascii.eqb a b then traits_compare s' t' else (uchar a - uchar b)%Z
  | _, _ => 0%Z
  end.

(** [std::string::compare] against a C string: the prefix decides, then the
    lengths. Only the sign of the result is specified. *)
Definition compare (s t : string) : Z :=
  let r := traits_compare s t in
  if (r =? 0)%Z then (Z.of_nat (String.length s) - Z.of_nat (String.length t))%Z else r.

(** [GetArchitecture], flutter_v2ray_client_desktop_plugin.cpp:14-26. *)
Definition GetArchitecture (env : gset string) : string :=
  if Cpp.defined "_M_X64" env then "64"
  else if Cpp.defined "_M_IX86" env then "32"
  else if Cpp.defined "_M_ARM64" env then "arm64"
  else if Cpp.defined "_M_ARM" env then "arm32"
  else "unknown".

(** [FlutterV2rayClientDesktopPlugin::HandleMethodCall],
    flutter_v2ray_client_desktop_plugin.cpp:50-63. *)
Definition HandleMethodCall (env : gset string)
    (method_call : MethodCall) (result : MethodResult) : MethodResult :=
  if (compare (method_name method_call) "geResPath" =? 0)%Z then
    let arch := GetArchitecture env in
    let resource_path := "resources/" ++ arch in
    Success (EncodableString resource_path) result
  else
    NotImplemented result.

Definition tested : list string := ["_M_X64"; "_M_IX86"; "_M_ARM64"; "_M_ARM"].

(** Modelled from the spec: the macro MSVC predefines for each class of
    the priority list (the compiler's table is not in the repository). *)
Definition arch_macro (t : ArchitectureClass) : option string :=
  match t with
  | X86_64 => Some "_M_X64"
  | X86_32 => Some "_M_IX86"
  | ARM_64 => Some "_M_ARM64"
  | ARM_32 => Some "_M_ARM"
  | OtherArchitecture => None
  end.

(** The value a reply carries, if any. *)
Definition payload (r : Reply) : option EncodableValue :=
  match r with
  | ReplySuccess v => Some v
  | ReplyError _ _ details => Some details
  | ReplyNotImplemented => None
  end.

Definition is_success (r : Reply) : bool :=
  match r with ReplySuccess _ => true | _ => false end.

End Windows.

(** ** Linux *)

(** The functions of the C library and of GLib the Linux plugin calls.
    They are not part of the repository; each is written after its
    documented behaviour. *)
Module GLib.

(** [strcmp]: the difference of the first bytes that differ, the
    terminator included; the end of the modelled bytes is the terminator
    and an embedded NUL ends the comparison as it does in C. *)
Fixpoint strcmp (s t : string) : Z :=
  match s, t with
  | EmptyString, EmptyString => 0%Z
  | EmptyString, String b _ => (0 - uchar b)%Z
  | String a _, EmptyString => (uchar a - 0)%Z
  | String a s', String b t' =>
      if Ascii.eqb a b then (if Ascii.eqb a NUL then 0%Z else strcmp s' t')
      else (uchar a - uchar b)%Z
  end.

(** [strrchr (s, c)] as the offset of the last [c] in [s]. *)
Fixpoint strrchr (s : string) (c : ascii) : option nat :=
  match s with
  | EmptyString => None
  | String a s' =>
      match strrchr s' c with
      | Some i => Some (S i)
      | None => if Ascii.eqb a c then Some 0%nat else None
      end
  end.

Definition G_DIR_SEPARATOR : ascii := "/"%char.

Definition G_IS_DIR_SEPARATOR (c : option ascii) : bool :=
  match c with Some a => Ascii.eqb a G_DIR_SEPARATOR | None => false end.

(** The loop of [g_path_get_dirname]:
    step [base] back while it is past the start and on a separator. *)
Fixpoint skip_separators (file_name : string) (base : nat) : nat :=
  match base with
  | O => O
  | S b => if G_IS_DIR_SEPARATOR (String.get base file_name)
           then skip_separators file_name b else base
  end.

(** [g_path_get_dirname] (gfileutils.c, the branch without G_OS_WIN32):
    "." when the name has no separator, else the bytes up to the last
    run of separators. *)
Definition g_path_get_dirname (file_name : string) : string :=
  match strrchr file_name G_DIR_SEPARATOR with
  | None => "."
  | Some base =>
      let base := skip_separators file_name base in
      let len := (1 + base)%nat in
      String.substring 0 len file_name
  end.

(** [g_path_is_absolute], the branch without G_OS_WIN32. *)
Definition g_path_is_absolute (file_name : string) : bool :=
  G_IS_DIR_SEPARATOR (String.get 0 file_name).

End GLib.

Module Linux.

(** [FlValue], the variants that matter here. *)
Inductive FlValue : Type :=
| FlNull
| FlBool (b : bool)
| FlInt (n : Z)
| FlString (s : string).

Definition fl_value_new_string (s : string) : FlValue := FlString s.

(** [FlMethodResponse] and its three subclasses. *)
Inductive FlMethodResponse : Type :=
| FlMethodSuccessResponse (result : FlValue)
| FlMethodErrorResponse (code message : string) (details : FlValue)
| FlMethodNotImplementedResponse.

Definition fl_method_success_response_new (result : FlValue) : FlMethodResponse :=
  FlMethodSuccessResponse result.

Definition fl_method_not_implemented_response_new : FlMethodResponse :=
  FlMethodNotImplementedResponse.

(** [FlMethodCall]: the name and arguments received, and the responses
    sent on it so far, oldest first. *)
Record FlMethodCall : Type := {
  name : string;
  args : FlValue;
  responses : list FlMethodResponse
}.

Definition fl_method_call_get_name (method_call : FlMethodCall) : string :=
  name method_call.

Definition fl_method_call_respond (method_call : FlMethodCall)
    (response : FlMethodResponse) : FlMethodCall :=
  {| name := name method_call;
     args := args method_call;
     responses := (responses method_call ++ [response])%list |}.

(** [GetArchitecture], flutter_v2ray_client_desktop_plugin.cc:22-34. *)
Definition GetArchitecture (env : gset string) : string :=
  if Cpp.defined "__x86_64__" env then "64"
  else if Cpp.defined "__i386__" env then "32"
  else if Cpp.defined "__aarch64__" env then "arm64"
  else if Cpp.defined "__arm__" env then "arm32"
  else "unknown".

(** [method_call_handler], flutter_v2ray_client_desktop_plugin.cc:37-58.
    [__FILE__] is the name of the source file as the compiler was given
    it.  The handler returns the call with the response recorded; the
    allocation and release of [plugin_dir] and of the response objects
    leave no trace in this state. *)
Definition method_call_handler (env : gset string) (__FILE__ : string)
    (method_call : FlMethodCall) : FlMethodCall :=
  let method := fl_method_call_get_name method_call in
  if (GLib.strcmp method "geResPath" =? 0)%Z then
    let arch := GetArchitecture env in
    let plugin_dir := GLib.g_path_get_dirname __FILE__ in
    let resources_path := plugin_dir ++ "/resources/" ++ arch in
    let result_value := fl_value_new_string resources_path in
    let response := fl_method_success_response_new result_value in
    fl_method_call_respond method_call response
  else
    let response := fl_method_not_implemented_response_new in
    fl_method_call_respond method_call response.

Definition tested : list string :=
  ["__x86_64__"; "__i386__"; "__aarch64__"; "__arm__"].

(** Modelled from the spec: the macro GCC and Clang predefine for each
    class of the priority list (the compiler's table is not in the
    repository). *)
Definition arch_macro (t : ArchitectureClass) : option string :=
  match t with
  | X86_64 => Some "__x86_64__"
  | X86_32 => Some "__i386__"
  | ARM_64 => Some "__aarch64__"
  | ARM_32 => Some "__arm__"
  | OtherArchitecture => None
  end.

Definition payload (r : FlMethodResponse) : option FlValue :=
  match r with
  | FlMethodSuccessResponse v => Some v
  | FlMethodErrorResponse _ _ details => Some details
  | FlMethodNotImplementedResponse => None
  end.

Definition is_success (r : FlMethodResponse) : bool :=
  match r with FlMethodSuccessResponse _ => true | _ => false end.

End Linux.

(** ** Sample builds and calls *)

Definition msvc_x64 : gset string := {[ "_M_X64"; "_M_AMD64"; "_WIN64"; "_WIN32" ]}.
Definition msvc_arm64 : gset string := {[ "_M_ARM64"; "_WIN64"; "_WIN32" ]}.
Definition gcc_x86_64 : gset string := {[ "__x86_64__"; "__linux__"; "__LP64__" ]}.
Definition gcc_aarch64 : gset string := {[ "__aarch64__"; "__linux__"; "__LP64__" ]}.
Definition gcc_riscv64 : gset string := {[ "__riscv"; "__linux__"; "__LP64__" ]}.

Definition geResPath_win : Windows.MethodCall :=
  {| Windows.method_name := "geResPath"; Windows.arguments := Windows.EncodableNull |}.

Definition linux_call (n : string) : Linux.FlMethodCall :=
  {| Linux.name := n; Linux.args := Linux.FlNull; Linux.responses := [] |}.

(** The table of the paths of the working-directory-relative policy. *)
Definition windows_paths : list (string * string) :=
  [("64", "resources/64"); ("32", "resources/32"); ("arm64", "resources/arm64");
   ("arm32", "resources/arm32"); ("unknown", "resources/unknown")].

(** The smallest set of predefined macros of a build for class [t]. *)
Definition minimal_build (arch_macro : ArchitectureClass -> option string)
    (t : ArchitectureClass) : gset string :=
  match arch_macro t with
  | Some m => {[ m ]}
  | None => ∅
  end.

(** ** Registration on Windows *)

(** The parts of the Flutter C++ client wrapper the registration code
    drives.  The wrapper is not part of the repository; each operation is
    written after its documentation in [plugin_registrar.h] and
    [method_channel.h]. *)
Module WindowsPlugin.

(** The handler a channel holds: the closure
    [[plugin_pointer = plugin.get()](const auto &call, auto result) {..}]
    with the address it captured and the code it runs. *)
Record Handler : Type := {
  plugin_pointer : nat;
  on_call : Windows.MethodCall -> Windows.MethodResult -> Windows.MethodResult
}.

(** [flutter::PluginRegistrarWindows]: the handlers its messenger holds,
    by channel name, and the addresses of the plugin objects it owns. *)
Record PluginRegistrarWindows : Type := {
  messenger : gmap string Handler;
  plugins : gset nat
}.

(** [std::make_unique<FlutterV2rayClientDesktopPlugin>()]: an object at an
    address no live plugin has (the class has no data members). *)
Definition make_unique (registrar : PluginRegistrarWindows) : nat :=
  fresh (plugins registrar).

(** [MethodChannel::SetMethodCallHandler]: "registers a handler that
    should be called any time a method call is received on this channel";
    it replaces the one the messenger held for the channel. *)
Definition SetMethodCallHandler (channel : string) (handler : Handler)
    (registrar : PluginRegistrarWindows) : PluginRegistrarWindows :=
  {| messenger := <[channel := handler]> (messenger registrar);
     plugins := plugins registrar |}.

(** [PluginRegistrar::AddPlugin]: "takes ownership of plugin". *)
Definition AddPlugin (plugin : nat)
    (registrar : PluginRegistrarWindows) : PluginRegistrarWindows :=
  {| messenger := messenger registrar;
     plugins := {[ plugin ]} ∪ plugins registrar |}.

(** [FlutterV2rayClientDesktopPlugin::RegisterWithRegistrar],
    flutter_v2ray_client_desktop_plugin.cpp:29-44. *)
Definition RegisterWithRegistrar (env : gset string)
    (registrar : PluginRegistrarWindows) : PluginRegistrarWindows :=
  let channel := "flutter_v2ray_client_desktop" in
  let plugin := make_unique registrar in
  let registrar :=
    SetMethodCallHandler channel
      {| plugin_pointer := plugin;
         on_call := fun call result => Windows.HandleMethodCall env call result |}
      registrar in
  AddPlugin plugin registrar.

(** A method call arriving on [channel]: the handler of the channel runs
    on the plugin its pointer refers to.  [None] when the channel has no
    handler, or when the pointer refers to no plugin the registrar owns (a
    dangling pointer, where the C++ program has no defined behaviour). *)
Definition receive (registrar : PluginRegistrarWindows) (channel : string)
    (call : Windows.MethodCall) (result : Windows.MethodResult)
    : option Windows.MethodResult :=
  match messenger registrar !! channel with
  | Some handler =>
      if bool_decide (plugin_pointer handler ∈ plugins registrar)
      then Some (on_call handler call result)
      else None
  | None => None
  end.

(** Every handler's plugin is owned by the registrar. *)
Definition handlers_valid (registrar : PluginRegistrarWindows) : Prop :=
  forall channel handler,
    messenger registrar !! channel = Some handler ->
    plugin_pointer handler ∈ plugins registrar.

(** [PluginRegistrarManager]: the registrar wrapper of each
    [FlutterDesktopPluginRegistrarRef]. *)
Definition empty_registrar : PluginRegistrarWindows :=
  {| messenger := ∅; plugins := ∅ |}.

(** [PluginRegistrarManager::GetRegistrar]: "returns a plugin registrar
    wrapper [..], creating it if necessary". *)
Definition GetRegistrar (ref : nat) (manager : gmap nat PluginRegistrarWindows)
    : PluginRegistrarWindows * gmap nat PluginRegistrarWindows :=
  match manager !! ref with
  | Some registrar => (registrar, manager)
  | None => (empty_registrar, <[ref := empty_registrar]> manager)
  end.

(** [FlutterV2rayClientDesktopPluginCApiRegisterWithRegistrar],
    flutter_v2ray_client_desktop_plugin_c_api.cpp:7-12.  The wrapper is
    updated in place. *)
Definition FlutterV2rayClientDesktopPluginCApiRegisterWithRegistrar
    (env : gset string) (registrar : nat)
    (manager : gmap nat PluginRegistrarWindows)
    : gmap nat PluginRegistrarWindows :=
  let '(wrapper, manager) := GetRegistrar registrar manager in
  <[registrar := RegisterWithRegistrar env wrapper]> manager.

End WindowsPlugin.

(** ** Registration on Linux *)

(** GObject reference counting, after the GObject reference manual.  The
    heap maps each live object to its reference count. *)
Module GObject.

(** [g_object_new]: a new object with one reference. *)
Definition g_object_new (heap : gmap nat nat) : nat * gmap nat nat :=
  let object := fresh (dom heap) in
  (object, <[object := 1%nat]> heap).

(** [g_object_ref]: one reference more. *)
Definition g_object_ref (object : nat) (heap : gmap nat nat) : gmap nat nat :=
  match heap !! object with
  | Some n => <[object := S n]> heap
  | None => heap
  end.

(** [g_object_unref]: one reference less; the object is disposed of and
    finalised when that was the last one. *)
Definition g_object_unref (object : nat) (heap : gmap nat nat) : gmap nat nat :=
  match heap !! object with
  | Some (S (S n)) => <[object := S n]> heap
  | Some _ => delete object heap
  | None => heap
  end.

End GObject.

Module LinuxPlugin.

(** What [fl_method_channel_set_method_call_handler] is given: the
    handler, its [user_data] and the [destroy_notify] that frees it. *)
Record MethodCallHandler : Type := {
  handler : Linux.FlMethodCall -> Linux.FlMethodCall;
  user_data : nat;
  destroy_notify : option (nat -> gmap nat nat -> gmap nat nat)
}.

(** The objects alive and the handler of each channel of the messenger. *)
Record State : Type := {
  objects : gmap nat nat;
  channels : gmap string MethodCallHandler
}.

(** The handler of a channel is removed: its [destroy_notify], if any, is
    called on its [user_data]. *)
Definition release (h : MethodCallHandler) (heap : gmap nat nat) : gmap nat nat :=
  match destroy_notify h with
  | Some notify => notify (user_data h) heap
  | None => heap
  end.

(** A channel is closed. *)
Definition close_channel (channel : string) (st : State) : State :=
  match channels st !! channel with
  | Some old => {| objects := release old (objects st);
                   channels := delete channel (channels st) |}
  | None => st
  end.

(** [fl_method_channel_set_method_call_handler] on a new channel named
    [channel]: "the handler is removed if the channel is closed or is
    replaced by another handler", so the one the messenger held under the
    name is released, then the new one is installed. *)
Definition fl_method_channel_set_method_call_handler (channel : string)
    (h : MethodCallHandler) (st : State) : State :=
  let st := close_channel channel st in
  {| objects := objects st;
     channels := <[channel := h]> (channels st) |}.

(** [flutter_v2ray_client_desktop_plugin_register_with_registrar],
    flutter_v2ray_client_desktop_plugin.cc:70-83.  The codec and the
    channel are objects of the framework, released by [g_autoptr] when the
    function returns; the heap follows the plugin objects. *)
Definition flutter_v2ray_client_desktop_plugin_register_with_registrar
    (env : gset string) (__FILE__ : string) (st : State) : State :=
  let '(plugin, heap) := GObject.g_object_new (objects st) in
  let heap := GObject.g_object_ref plugin heap in
  let st :=
    fl_method_channel_set_method_call_handler "flutter_v2ray_client_desktop"
      {| handler := Linux.method_call_handler env __FILE__;
         user_data := plugin;
         destroy_notify := Some GObject.g_object_unref |}
      {| objects := heap; channels := channels st |} in
  {| objects := GObject.g_object_unref plugin (objects st);
     channels := channels st |}.

(** A method call arriving on [channel].  [None] when the channel has no
    handler, or when [user_data] is no live object (the cast of line 38
    would be applied to freed memory). *)
Definition receive (st : State) (channel : string)
    (method_call : Linux.FlMethodCall) : option Linux.FlMethodCall :=
  match channels st !! channel with
  | Some h =>
      match objects st !! user_data h with
      | Some _ => Some (handler h method_call)
      | None => None
      end
  | None => None
  end.

End LinuxPlugin.

(** A run of [n] directory separators. *)
Fixpoint separators (n : nat) : string :=
  match n with
  | O => ""
  | S n => String "/" (separators n)
  end.

(** * Properties *)

(** ** Bytes *)

Lemma uchar_inj a b : uchar a = uchar b -> a = b.
Proof.
  unfold uchar. intros H. apply N2Z.inj in H.
  rewrite <- (ascii_N_embedding a), <- (ascii_N_embedding b). now f_equal.
Qed.

Lemma uchar_diff_nonzero a b : Ascii.eqb a b = false -> (uchar a - uchar b)%Z <> 0%Z.
Proof.
  intros Hab Hz. apply Ascii.eqb_neq in Hab. apply Hab, uchar_inj. lia.
Qed.

Lemma uchar_NUL : uchar NUL = 0%Z.
Proof. reflexivity. Qed.

(** ** The comparisons of the method name *)

Lemma traits_compare_refl s : Windows.traits_compare s s = 0%Z.
Proof. induction s as [|a s IH]; simpl; [|rewrite Ascii.eqb_refl]; auto. Qed.

Lemma traits_compare_same_length s :
  forall t, Windows.traits_compare s t = 0%Z ->
            String.length s = String.length t -> s = t.
Proof.
  induction s as [|a s IH]; intros [|b t]; simpl; try discriminate; auto.
  destruct (Ascii.eqb a b) eqn:Eab.
  - apply Ascii.eqb_eq in Eab. subst b. intros H1 H2. f_equal. apply IH; auto.
  - intros H. now apply uchar_diff_nonzero in H.
Qed.

Lemma compare_eq_iff s t : Windows.compare s t = 0%Z <-> s = t.
Proof.
  unfold Windows.compare. split.
  - destruct (Z.eqb_spec (Windows.traits_compare s t) 0) as [E|E].
    + intros Hlen. apply traits_compare_same_length; [exact E | lia].
    + intros; contradiction.
  - intros ->. rewrite traits_compare_refl. simpl. lia.
Qed.

Lemma strcmp_refl s : GLib.strcmp s s = 0%Z.
Proof.
  induction s as [|a s IH]; simpl; auto.
  rewrite Ascii.eqb_refl. now destruct (Ascii.eqb a NUL).
Qed.

Lemma strcmp_eq_iff s :
  forall t, c_string s = true -> c_string t = true ->
            (GLib.strcmp s t = 0%Z <-> s = t).
Proof.
  induction s as [|a s IH]; intros [|b t]; simpl; intros Hs Ht.
  - tauto.
  - apply andb_prop in Ht as [Hb _]. apply negb_true_iff in Hb.
    split; [|discriminate]. intros H. exfalso.
    apply (uchar_diff_nonzero b NUL Hb). rewrite uchar_NUL. lia.
  - apply andb_prop in Hs as [Ha _]. apply negb_true_iff in Ha.
    split; [|discriminate]. intros H. exfalso.
    apply (uchar_diff_nonzero a NUL Ha). rewrite uchar_NUL. lia.
  - apply andb_prop in Hs as [Ha Hs]. apply andb_prop in Ht as [_ Ht].
    apply negb_true_iff in Ha. rewrite Ha.
    destruct (Ascii.eqb a b) eqn:Eab.
    + apply Ascii.eqb_eq in Eab. subst b. rewrite (IH t Hs Ht).
      split; [intros ->; reflexivity | intros [=]; assumption].
    + split.
      * intros H. now apply uchar_diff_nonzero in H.
      * intros [= -> _]. rewrite Ascii.eqb_refl in Eab. discriminate.
Qed.

(** Bytes after an embedded NUL are not part of a C string and [strcmp]
    does not look at them; the names the Linux handler is given are C
    strings. *)
Remark strcmp_stops_at_NUL :
  GLib.strcmp ("geResPath" ++ String NUL "x") "geResPath" = 0%Z /\
  c_string ("geResPath" ++ String NUL "x") = false.
Proof. split; reflexivity. Qed.

(** The branch each handler takes. *)
Lemma windows_test_name n :
  (Windows.compare n "geResPath" =? 0)%Z = bool_decide (n = "geResPath").
Proof.
  destruct (Z.eqb_spec (Windows.compare n "geResPath") 0) as [E|E];
    rewrite compare_eq_iff in E; symmetry.
  - now apply bool_decide_eq_true.
  - now apply bool_decide_eq_false.
Qed.

Lemma linux_test_name n :
  c_string n = true ->
  (GLib.strcmp n "geResPath" =? 0)%Z = bool_decide (n = "geResPath").
Proof.
  intros Hn.
  destruct (Z.eqb_spec (GLib.strcmp n "geResPath") 0) as [E|E];
    rewrite (strcmp_eq_iff n "geResPath" Hn eq_refl) in E; symmetry.
  - now apply bool_decide_eq_true.
  - now apply bool_decide_eq_false.
Qed.

(** ** The classification *)

(** Each [#if]/[#elif] of the chain, in its priority order. *)
Lemma windows_GetArchitecture_chain env :
  Windows.GetArchitecture env =
    if bool_decide ("_M_X64" ∈ env) then "64"
    else if bool_decide ("_M_IX86" ∈ env) then "32"
    else if bool_decide ("_M_ARM64" ∈ env) then "arm64"
    else if bool_decide ("_M_ARM" ∈ env) then "arm32"
    else "unknown".
Proof. reflexivity. Qed.

Lemma linux_GetArchitecture_chain env :
  Linux.GetArchitecture env =
    if bool_decide ("__x86_64__" ∈ env) then "64"
    else if bool_decide ("__i386__" ∈ env) then "32"
    else if bool_decide ("__aarch64__" ∈ env) then "arm64"
    else if bool_decide ("__arm__" ∈ env) then "arm32"
    else "unknown".
Proof. reflexivity. Qed.

(** Splits a hypothesis [targets ..] or [Forall ..] over the four tested
    macros into its four facts. *)
Ltac split_tested H :=
  unfold targets, Windows.tested, Linux.tested in H;
  repeat match type of H with
         | Forall _ (_ :: _) =>
             let H1 := fresh "Hm" in
             apply Forall_cons in H as [H1 H]
         end;
  clear H.

(** Follows the chain of a [GetArchitecture] case by case and closes the
    cases the facts about the macros exclude. *)
Ltac follow_chain :=
  repeat case_bool_decide; try reflexivity; exfalso; intuition congruence.

Lemma windows_label_of_target env t :
  targets Windows.arch_macro Windows.tested env t ->
  Windows.GetArchitecture env = documented_label t.
Proof.
  intros H. rewrite windows_GetArchitecture_chain. split_tested H.
  destruct t; cbn [Windows.arch_macro documented_label] in *; follow_chain.
Qed.

Lemma linux_label_of_target env t :
  targets Linux.arch_macro Linux.tested env t ->
  Linux.GetArchitecture env = documented_label t.
Proof.
  intros H. rewrite linux_GetArchitecture_chain. split_tested H.
  destruct t; cbn [Linux.arch_macro documented_label] in *; follow_chain.
Qed.

Lemma windows_label_in_labels env : In (Windows.GetArchitecture env) labels.
Proof.
  rewrite windows_GetArchitecture_chain.
  repeat case_bool_decide; simpl; tauto.
Qed.

Lemma linux_label_in_labels env : In (Linux.GetArchitecture env) labels.
Proof.
  rewrite linux_GetArchitecture_chain.
  repeat case_bool_decide; simpl; tauto.
Qed.

Lemma windows_unknown_iff env :
  Windows.GetArchitecture env = "unknown" <->
  Forall (fun m => m ∉ env) Windows.tested.
Proof.
  rewrite windows_GetArchitecture_chain. split.
  - repeat case_bool_decide; try discriminate. intros _.
    unfold Windows.tested. repeat constructor; assumption.
  - intros H. split_tested H. follow_chain.
Qed.

Lemma linux_unknown_iff env :
  Linux.GetArchitecture env = "unknown" <->
  Forall (fun m => m ∉ env) Linux.tested.
Proof.
  rewrite linux_GetArchitecture_chain. split.
  - repeat case_bool_decide; try discriminate. intros _.
    unfold Linux.tested. repeat constructor; assumption.
  - intros H. split_tested H. follow_chain.
Qed.

Example linux_riscv64_is_unknown : Linux.GetArchitecture gcc_riscv64 = "unknown".
Proof. vm_compute. reflexivity. Qed.

Example windows_priority_order :
  Windows.GetArchitecture {[ "_M_ARM64"; "_M_X64" ]} = "64".
Proof. vm_compute. reflexivity. Qed.

(** Every class has a build on each platform. *)
Lemma windows_targets_inhabited t :
  targets Windows.arch_macro Windows.tested (minimal_build Windows.arch_macro t) t.
Proof. destruct t; apply (bool_decide_unpack _); vm_compute; exact I. Qed.

Lemma linux_targets_inhabited t :
  targets Linux.arch_macro Linux.tested (minimal_build Linux.arch_macro t) t.
Proof. destruct t; apply (bool_decide_unpack _); vm_compute; exact I. Qed.

(** The same chain on both platforms: where the macros tested at the same
    position are defined alike, the labels agree. *)
Lemma GetArchitecture_positionwise envW envL :
  Forall2 (fun mw ml => mw ∈ envW <-> ml ∈ envL) Windows.tested Linux.tested ->
  Windows.GetArchitecture envW = Linux.GetArchitecture envL.
Proof.
  unfold Windows.tested, Linux.tested. intros H.
  repeat match type of H with
         | Forall2 _ (_ :: _) (_ :: _) =>
             let H1 := fresh "Hm" in
             apply Forall2_cons in H as [H1 H]
         end.
  clear H. rewrite windows_GetArchitecture_chain, linux_GetArchitecture_chain.
  follow_chain.
Qed.

(** The label depends on the four tested macros only. *)
Lemma windows_label_same_target env1 env2 :
  Forall (fun m => m ∈ env1 <-> m ∈ env2) Windows.tested ->
  Windows.GetArchitecture env1 = Windows.GetArchitecture env2.
Proof.
  intros H. split_tested H. rewrite !windows_GetArchitecture_chain. follow_chain.
Qed.

Lemma linux_label_same_target env1 env2 :
  Forall (fun m => m ∈ env1 <-> m ∈ env2) Linux.tested ->
  Linux.GetArchitecture env1 = Linux.GetArchitecture env2.
Proof.
  intros H. split_tested H. rewrite !linux_GetArchitecture_chain. follow_chain.
Qed.

(** ** Paths *)

Lemma path_segments_nonempty s : path_segments s <> [].
Proof.
  destruct s as [|c s]; simpl; [discriminate|].
  destruct (Ascii.eqb c "/"); [discriminate|].
  destruct (path_segments s); discriminate.
Qed.

Lemma path_segments_app a b :
  path_segments (a ++ String "/" b) = (path_segments a ++ path_segments b)%list.
Proof.
  induction a as [|c a IH]; simpl; [reflexivity|].
  rewrite IH. destruct (Ascii.eqb c "/"); [reflexivity|].
  pose proof (path_segments_nonempty a) as Hne.
  destruct (path_segments a); [contradiction | reflexivity].
Qed.

Lemma path_segments_separator_free s :
  separator_free s = true -> path_segments s = [s].
Proof.
  induction s as [|c s IH]; simpl; [reflexivity|].
  intros H. apply andb_prop in H as [Hc Hs]. apply negb_true_iff in Hc.
  rewrite Hc, (IH Hs). reflexivity.
Qed.

Lemma final_segments_app {A} (l k : list A) :
  final_segments (length k) (l ++ k)%list = k.
Proof.
  unfold final_segments. rewrite length_app.
  replace (length l + length k - length k)%nat with (length l) by lia.
  apply drop_app_length.
Qed.

Lemma label_separator_free l : In l labels -> separator_free l = true.
Proof.
  unfold labels. simpl. intros H.
  repeat destruct H as [<- | H]; try reflexivity. contradiction.
Qed.

(** The last two segments of an anchored path. *)
Lemma anchored_path_final_segments dir arch :
  separator_free arch = true ->
  final_segments 2 (path_segments (dir ++ "/resources/" ++ arch)) = ["resources"; arch].
Proof.
  intros Harch.
  change (dir ++ "/resources/" ++ arch)
    with (dir ++ String "/" ("resources" ++ String "/" arch)).
  rewrite !path_segments_app, (path_segments_separator_free arch Harch).
  apply (final_segments_app (path_segments dir) ["resources"; arch]).
Qed.

Lemma strrchr_None_head a s c :
  GLib.strrchr (String a s) c = None -> Ascii.eqb a c = false.
Proof.
  simpl. destruct (GLib.strrchr s c); [discriminate|].
  now destruct (Ascii.eqb a c).
Qed.

(** A path anchored at the directory of a file is absolute exactly when
    the file's name is. *)
Lemma dirname_anchor_absolute file_name rest :
  GLib.g_path_is_absolute (GLib.g_path_get_dirname file_name ++ rest) =
  GLib.g_path_is_absolute file_name.
Proof.
  unfold GLib.g_path_get_dirname.
  destruct (GLib.strrchr file_name GLib.G_DIR_SEPARATOR) as [base|] eqn:E.
  - destruct file_name as [|a s]; [discriminate|]. reflexivity.
  - destruct file_name as [|a s]; [reflexivity|].
    apply strrchr_None_head in E.
    unfold GLib.g_path_is_absolute. simpl. now rewrite E.
Qed.

(** ** The handlers, branch by branch *)

Lemma windows_handler_geResPath env call result :
  Windows.method_name call = "geResPath" ->
  Windows.HandleMethodCall env call result =
  (result ++ [Windows.ReplySuccess
                (Windows.EncodableString ("resources/" ++ Windows.GetArchitecture env))])%list.
Proof.
  intros Hn. unfold Windows.HandleMethodCall.
  rewrite windows_test_name, (bool_decide_eq_true_2 _ Hn). reflexivity.
Qed.

Lemma windows_handler_other env call result :
  Windows.method_name call <> "geResPath" ->
  Windows.HandleMethodCall env call result =
  (result ++ [Windows.ReplyNotImplemented])%list.
Proof.
  intros Hn. unfold Windows.HandleMethodCall.
  rewrite windows_test_name, (bool_decide_eq_false_2 _ Hn). reflexivity.
Qed.

Lemma linux_handler_geResPath env file call :
  Linux.name call = "geResPath" ->
  Linux.method_call_handler env file call =
  Linux.fl_method_call_respond call
    (Linux.FlMethodSuccessResponse
       (Linux.FlString (GLib.g_path_get_dirname file ++ "/resources/"
                        ++ Linux.GetArchitecture env))).
Proof.
  intros Hn. unfold Linux.method_call_handler, Linux.fl_method_call_get_name.
  rewrite Hn. reflexivity.
Qed.

Lemma linux_handler_other env file call :
  c_string (Linux.name call) = true ->
  Linux.name call <> "geResPath" ->
  Linux.method_call_handler env file call =
  Linux.fl_method_call_respond call Linux.FlMethodNotImplementedResponse.
Proof.
  intros Hc Hn. unfold Linux.method_call_handler, Linux.fl_method_call_get_name.
  rewrite (linux_test_name _ Hc), (bool_decide_eq_false_2 _ Hn). reflexivity.
Qed.

(** Whatever the name, one response is recorded and nothing else of the
    call changes. *)
Lemma linux_handler_responds env file call :
  exists response,
    Linux.method_call_handler env file call =
    Linux.fl_method_call_respond call response.
Proof.
  unfold Linux.method_call_handler.
  destruct (GLib.strcmp _ _ =? 0)%Z; eexists; reflexivity.
Qed.

Lemma windows_handler_responds env call result :
  exists reply,
    Windows.HandleMethodCall env call result = (result ++ [reply])%list.
Proof.
  unfold Windows.HandleMethodCall.
  destruct (Windows.compare _ _ =? 0)%Z; eexists; reflexivity.
Qed.

(** The shape of the path the Linux handler answers with: its last two
    segments are [resources] and the label, and it is absolute exactly when
    [__FILE__] is. *)
Lemma linux_resources_path_shape env file call :
  Linux.name call = "geResPath" ->
  exists path,
    Linux.responses (Linux.method_call_handler env file call) =
      (Linux.responses call ++ [Linux.FlMethodSuccessResponse (Linux.FlString path)])%list /\
    final_segments 2 (path_segments path) = ["resources"; Linux.GetArchitecture env] /\
    GLib.g_path_is_absolute path = GLib.g_path_is_absolute file.
Proof.
  intros Hn. rewrite (linux_handler_geResPath env file call Hn).
  eexists. split; [reflexivity|]. split.
  - apply anchored_path_final_segments, label_separator_free, linux_label_in_labels.
  - apply dirname_anchor_absolute.
Qed.

(** * The claims *)

(** C1. For every build target, [GetArchitecture] returns the documented
    label of the target's class: "64" for 64-bit x86, "32" for 32-bit x86,
    "arm64" for 64-bit ARM, "arm32" for 32-bit ARM and "unknown" for any
    other target, in the Windows and in the Linux plugin. *)
Theorem C1_GetArchitecture_documented_label :
  forall (t : ArchitectureClass) (envW envL : gset string),
    targets Windows.arch_macro Windows.tested envW t ->
    targets Linux.arch_macro Linux.tested envL t ->
    Windows.GetArchitecture envW = documented_label t /\
    Linux.GetArchitecture envL = documented_label t.
Proof.
  intros t envW envL HW HL. split.
  - exact (windows_label_of_target envW t HW).
  - exact (linux_label_of_target envL t HL).
Qed.

Lemma C1_GetArchitecture_documented_label_witness :
  targets Windows.arch_macro Windows.tested msvc_arm64 ARM_64 /\
  targets Linux.arch_macro Linux.tested gcc_aarch64 ARM_64 /\
  Windows.GetArchitecture msvc_arm64 = "arm64" /\
  Linux.GetArchitecture gcc_aarch64 = "arm64".
Proof.
  assert (HW : targets Windows.arch_macro Windows.tested msvc_arm64 ARM_64)
    by (apply (bool_decide_unpack _); vm_compute; exact I).
  assert (HL : targets Linux.arch_macro Linux.tested gcc_aarch64 ARM_64)
    by (apply (bool_decide_unpack _); vm_compute; exact I).
  split; [exact HW|]. split; [exact HL|].
  exact (C1_GetArchitecture_documented_label ARM_64 msvc_arm64 gcc_aarch64 HW HL).
Defined.

(** C2. A call whose method name is "geResPath" is answered with a success
    response whose payload is the string of the platform's resolved
    resources path: the working-directory-relative path of the label on
    Windows, the path of the label anchored at the directory of the
    plugin's source on Linux. *)
Theorem C2_geResPath_success_with_resolved_path :
  forall (envW envL : gset string) (file : string)
         (callW : Windows.MethodCall) (result : Windows.MethodResult)
         (callL : Linux.FlMethodCall),
    Windows.method_name callW = "geResPath" ->
    Linux.name callL = "geResPath" ->
    Windows.HandleMethodCall envW callW result =
      (result ++ [Windows.ReplySuccess (Windows.EncodableString
         (Spec.ResolveResourcesPath Spec.WorkingDirectoryRelative
            (Windows.GetArchitecture envW)))])%list /\
    Linux.responses (Linux.method_call_handler envL file callL) =
      (Linux.responses callL ++ [Linux.FlMethodSuccessResponse (Linux.FlString
         (Spec.ResolveResourcesPath (Spec.AnchoredAt (GLib.g_path_get_dirname file))
            (Linux.GetArchitecture envL)))])%list.
Proof.
  intros envW envL file callW result callL HW HL. split.
  - apply windows_handler_geResPath, HW.
  - rewrite (linux_handler_geResPath envL file callL HL). reflexivity.
Qed.

Lemma C2_geResPath_success_with_resolved_path_witness :
  Windows.HandleMethodCall msvc_x64 geResPath_win [] =
    [Windows.ReplySuccess (Windows.EncodableString "resources/64")] /\
  Linux.responses
    (Linux.method_call_handler gcc_aarch64 "/opt/app/linux/plugin.cc"
       (linux_call "geResPath")) =
    [Linux.FlMethodSuccessResponse (Linux.FlString "/opt/app/linux/resources/arm64")].
Proof.
  exact (C2_geResPath_success_with_resolved_path msvc_x64 gcc_aarch64
           "/opt/app/linux/plugin.cc" geResPath_win [] (linux_call "geResPath")
           eq_refl eq_refl).
Defined.

(** C3. A call whose method name is anything but "geResPath" is answered
    with the not-implemented response, which carries no payload; that is
    the only outcome besides success with a path, and the answer is a
    success exactly when the name is "geResPath".  On Linux the name is a
    C string. *)
Theorem C3_not_implemented_iff_other_name :
  forall (envW envL : gset string) (file : string)
         (callW : Windows.MethodCall) (result : Windows.MethodResult)
         (callL : Linux.FlMethodCall),
    c_string (Linux.name callL) = true ->
    (exists reply,
        Windows.HandleMethodCall envW callW result = (result ++ [reply])%list /\
        (Windows.method_name callW <> "geResPath" ->
           reply = Windows.ReplyNotImplemented /\ Windows.payload reply = None) /\
        (Windows.is_success reply = true <-> Windows.method_name callW = "geResPath") /\
        (reply = Windows.ReplyNotImplemented \/
         exists path, reply = Windows.ReplySuccess (Windows.EncodableString path))) /\
    (exists response,
        Linux.responses (Linux.method_call_handler envL file callL) =
          (Linux.responses callL ++ [response])%list /\
        (Linux.name callL <> "geResPath" ->
           response = Linux.FlMethodNotImplementedResponse /\
           Linux.payload response = None) /\
        (Linux.is_success response = true <-> Linux.name callL = "geResPath") /\
        (response = Linux.FlMethodNotImplementedResponse \/
         exists path, response = Linux.FlMethodSuccessResponse (Linux.FlString path))).
Proof.
  intros envW envL file callW result callL Hc. split.
  - destruct (decide (Windows.method_name callW = "geResPath")) as [Hn|Hn].
    + eexists. split; [apply windows_handler_geResPath, Hn|].
      repeat split; try tauto; try (intros; contradiction).
      right. eexists. reflexivity.
    + eexists. split; [apply windows_handler_other, Hn|].
      repeat split; try tauto; try discriminate.
  - destruct (decide (Linux.name callL = "geResPath")) as [Hn|Hn].
    + rewrite (linux_handler_geResPath envL file callL Hn).
      eexists. split; [reflexivity|].
      repeat split; try tauto; try (intros; contradiction).
      right. eexists. reflexivity.
    + rewrite (linux_handler_other envL file callL Hc Hn).
      eexists. split; [reflexivity|].
      repeat split; try tauto; try discriminate.
Qed.

Lemma C3_not_implemented_iff_other_name_witness :
  c_string "foo" = true /\
  Windows.HandleMethodCall msvc_x64
    {| Windows.method_name := ""; Windows.arguments := Windows.EncodableNull |} [] =
    [Windows.ReplyNotImplemented] /\
  Linux.responses (Linux.method_call_handler gcc_x86_64 "/opt/app/linux/plugin.cc"
                     (linux_call "foo")) =
    [Linux.FlMethodNotImplementedResponse].
Proof.
  split; [reflexivity|].
  destruct (C3_not_implemented_iff_other_name msvc_x64 gcc_x86_64
              "/opt/app/linux/plugin.cc"
              {| Windows.method_name := ""; Windows.arguments := Windows.EncodableNull |}
              [] (linux_call "foo") eq_refl)
    as [[reply [HW [HWn _]]] [response [HL [HLn _]]]].
  split.
  - rewrite HW. destruct HWn as [-> _]; [discriminate | reflexivity].
  - rewrite HL. destruct HLn as [-> _]; [discriminate | reflexivity].
Defined.

(** C4. On Windows (the working-directory-relative policy), for each label
    of "64", "32", "arm64", "arm32", "unknown", the path answered when
    [GetArchitecture] gives that label is, character for character,
    "resources/" followed by the label: "resources/64" for "64", and so
    on. *)
Theorem C4_windows_path_is_resources_label :
  forall (env : gset string) (call : Windows.MethodCall)
         (result : Windows.MethodResult) (label path : string),
    In (label, path) windows_paths ->
    Windows.GetArchitecture env = label ->
    Windows.method_name call = "geResPath" ->
    path = "resources/" ++ label /\
    Windows.HandleMethodCall env call result =
      (result ++ [Windows.ReplySuccess (Windows.EncodableString path)])%list.
Proof.
  intros env call result label path Hin Hlabel Hname.
  assert (Hpath : path = "resources/" ++ label).
  { unfold windows_paths in Hin. simpl in Hin.
    repeat destruct Hin as [[= <- <-] | Hin]; try reflexivity. contradiction. }
  split; [exact Hpath|].
  rewrite (windows_handler_geResPath env call result Hname), Hlabel, Hpath.
  reflexivity.
Qed.

Lemma C4_windows_path_is_resources_label_witness :
  In ("64", "resources/64") windows_paths /\
  Windows.GetArchitecture msvc_x64 = "64" /\
  "resources/64" = "resources/" ++ "64" /\
  Windows.HandleMethodCall msvc_x64 geResPath_win [] =
    [Windows.ReplySuccess (Windows.EncodableString "resources/64")].
Proof.
  assert (Hin : In ("64", "resources/64") windows_paths) by (simpl; tauto).
  assert (Hl : Windows.GetArchitecture msvc_x64 = "64") by (vm_compute; reflexivity).
  split; [exact Hin|]. split; [exact Hl|].
  exact (C4_windows_path_is_resources_label msvc_x64 geResPath_win []
           "64" "resources/64" Hin Hl eq_refl).
Defined.

(** C5. The Linux plugin built from a source file named without a
    directory ([__FILE__] is "flutter_v2ray_client_desktop_plugin.cc"):
    the path answered is "./resources/64", whose last two segments are
    "resources" and the label, and which is not an absolute path. *)
Theorem C5_relative_FILE_gives_relative_path :
  Linux.responses
    (Linux.method_call_handler gcc_x86_64 "flutter_v2ray_client_desktop_plugin.cc"
       (linux_call "geResPath")) =
    [Linux.FlMethodSuccessResponse (Linux.FlString "./resources/64")] /\
  final_segments 2 (path_segments "./resources/64") = ["resources"; "64"] /\
  GLib.g_path_is_absolute "./resources/64" = false.
Proof. vm_compute. repeat split. Qed.

(** C6. [GetArchitecture] has no error case: for every set of predefined
    macros it returns one of the five labels, "unknown" exactly when none
    of the tested macros is defined; and the handlers never answer with an
    error response. *)
Theorem C6_GetArchitecture_total_no_error :
  forall (envW envL : gset string) (file : string)
         (callW : Windows.MethodCall) (result : Windows.MethodResult)
         (callL : Linux.FlMethodCall),
    (In (Windows.GetArchitecture envW) labels /\
     (Windows.GetArchitecture envW = "unknown" <->
      Forall (fun m => m ∉ envW) Windows.tested)) /\
    (In (Linux.GetArchitecture envL) labels /\
     (Linux.GetArchitecture envL = "unknown" <->
      Forall (fun m => m ∉ envL) Linux.tested)) /\
    (exists reply,
        Windows.HandleMethodCall envW callW result = (result ++ [reply])%list /\
        forall code message details,
          reply <> Windows.ReplyError code message details) /\
    (exists response,
        Linux.responses (Linux.method_call_handler envL file callL) =
          (Linux.responses callL ++ [response])%list /\
        forall code message details,
          response <> Linux.FlMethodErrorResponse code message details).
Proof.
  intros envW envL file callW result callL.
  split; [split; [apply windows_label_in_labels | apply windows_unknown_iff]|].
  split; [split; [apply linux_label_in_labels | apply linux_unknown_iff]|].
  split.
  - unfold Windows.HandleMethodCall.
    destruct (Windows.compare _ _ =? 0)%Z; eexists; (split; [reflexivity | discriminate]).
  - unfold Linux.method_call_handler.
    destruct (GLib.strcmp _ _ =? 0)%Z; eexists; (split; [reflexivity | discriminate]).
Qed.

(** C7. The resolver is deterministic: two builds for the same target
    (the tested macros defined alike) give the same label, and any two
    "geResPath" calls, whatever their arguments and whatever was answered
    before, are answered with the same path; calling twice in a row
    answers the same twice. *)
Theorem C7_resolver_deterministic :
  forall (envW envW' envL envL' : gset string) (file : string)
         (c1 c2 : Windows.MethodCall) (r1 r2 : Windows.MethodResult)
         (m1 m2 : Linux.FlMethodCall),
    Forall (fun m => m ∈ envW <-> m ∈ envW') Windows.tested ->
    Forall (fun m => m ∈ envL <-> m ∈ envL') Linux.tested ->
    Windows.method_name c1 = "geResPath" ->
    Windows.method_name c2 = "geResPath" ->
    Linux.name m1 = "geResPath" ->
    Linux.name m2 = "geResPath" ->
    Windows.GetArchitecture envW = Windows.GetArchitecture envW' /\
    Linux.GetArchitecture envL = Linux.GetArchitecture envL' /\
    (exists reply,
        Windows.HandleMethodCall envW c1 r1 = (r1 ++ [reply])%list /\
        Windows.HandleMethodCall envW' c2 r2 = (r2 ++ [reply])%list /\
        Windows.HandleMethodCall envW c1 (Windows.HandleMethodCall envW c1 r1) =
          (r1 ++ [reply; reply])%list) /\
    (exists response,
        Linux.responses (Linux.method_call_handler envL file m1) =
          (Linux.responses m1 ++ [response])%list /\
        Linux.responses (Linux.method_call_handler envL' file m2) =
          (Linux.responses m2 ++ [response])%list /\
        Linux.responses
          (Linux.method_call_handler envL file (Linux.method_call_handler envL file m1)) =
          (Linux.responses m1 ++ [response; response])%list).
Proof.
  intros envW envW' envL envL' file c1 c2 r1 r2 m1 m2 HW HL Hc1 Hc2 Hm1 Hm2.
  pose proof (windows_label_same_target envW envW' HW) as EW.
  pose proof (linux_label_same_target envL envL' HL) as EL.
  split; [exact EW|]. split; [exact EL|]. split.
  - eexists. split; [apply windows_handler_geResPath, Hc1|]. split.
    + rewrite EW. apply windows_handler_geResPath, Hc2.
    + rewrite !(windows_handler_geResPath envW c1 _ Hc1), <- app_assoc. reflexivity.
  - rewrite (linux_handler_geResPath envL file m1 Hm1),
      (linux_handler_geResPath envL' file m2 Hm2), <- EL.
    eexists. split; [reflexivity|]. split; [reflexivity|].
    rewrite linux_handler_geResPath by exact Hm1.
    simpl. rewrite <- app_assoc. reflexivity.
Qed.

Lemma C7_resolver_deterministic_witness :
  Windows.HandleMethodCall msvc_x64 geResPath_win
    (Windows.HandleMethodCall msvc_x64 geResPath_win []) =
    [Windows.ReplySuccess (Windows.EncodableString "resources/64");
     Windows.ReplySuccess (Windows.EncodableString "resources/64")] /\
  Linux.responses
    (Linux.method_call_handler gcc_x86_64 "/opt/app/linux/plugin.cc"
       (Linux.method_call_handler gcc_x86_64 "/opt/app/linux/plugin.cc"
          (linux_call "geResPath"))) =
    [Linux.FlMethodSuccessResponse (Linux.FlString "/opt/app/linux/resources/64");
     Linux.FlMethodSuccessResponse (Linux.FlString "/opt/app/linux/resources/64")].
Proof.
  assert (HW : Forall (fun m => m ∈ msvc_x64 <-> m ∈ msvc_x64) Windows.tested)
    by (apply (bool_decide_unpack _); vm_compute; exact I).
  assert (HL : Forall (fun m => m ∈ gcc_x86_64 <-> m ∈ gcc_x86_64) Linux.tested)
    by (apply (bool_decide_unpack _); vm_compute; exact I).
  destruct (C7_resolver_deterministic msvc_x64 msvc_x64 gcc_x86_64 gcc_x86_64
              "/opt/app/linux/plugin.cc" geResPath_win geResPath_win [] []
              (linux_call "geResPath") (linux_call "geResPath")
              HW HL eq_refl eq_refl eq_refl eq_refl)
    as (_ & _ & (reply & HW1 & _ & HW2) & (response & HL1 & _ & HL2)).
  split.
  - rewrite HW2. vm_compute in HW1. injection HW1 as <-. reflexivity.
  - rewrite HL2. vm_compute in HL1. injection HL1 as <-. reflexivity.
Defined.

(** C8. The label [GetArchitecture] returns is always one of "64", "32",
    "arm64", "arm32", "unknown", whatever macros the build predefines. *)
Theorem C8_label_in_closed_set :
  forall envW envL : gset string,
    In (Windows.GetArchitecture envW) labels /\
    In (Linux.GetArchitecture envL) labels.
Proof.
  intros envW envL. split.
  - apply windows_label_in_labels.
  - apply linux_label_in_labels.
Qed.

(** C9. Every call is answered exactly once: whichever branch the handler
    takes, it adds one response to those already sent and changes nothing
    else. *)
Theorem C9_exactly_one_response :
  forall (envW envL : gset string) (file : string)
         (callW : Windows.MethodCall) (result : Windows.MethodResult)
         (callL : Linux.FlMethodCall),
    (exists reply,
        Windows.HandleMethodCall envW callW result = (result ++ [reply])%list) /\
    length (Windows.HandleMethodCall envW callW result) = S (length result) /\
    (exists response,
        Linux.method_call_handler envL file callL =
          {| Linux.name := Linux.name callL;
             Linux.args := Linux.args callL;
             Linux.responses := (Linux.responses callL ++ [response])%list |}) /\
    length (Linux.responses (Linux.method_call_handler envL file callL)) =
      S (length (Linux.responses callL)).
Proof.
  intros envW envL file callW result callL.
  destruct (windows_handler_responds envW callW result) as [reply HW].
  destruct (linux_handler_responds envL file callL) as [response HL].
  split; [exists reply; exact HW|]. split.
  - rewrite HW, length_app. simpl. lia.
  - split; [exists response; exact HL|].
    rewrite HL. simpl. rewrite length_app. simpl. lia.
Qed.

(** C10. The Windows and the Linux [GetArchitecture] compute the same
    classification: for each architecture class, a Windows build and a
    Linux build for that class return equal labels. *)
Theorem C10_windows_linux_same_classification :
  forall (t : ArchitectureClass) (envW envL : gset string),
    targets Windows.arch_macro Windows.tested envW t ->
    targets Linux.arch_macro Linux.tested envL t ->
    Windows.GetArchitecture envW = Linux.GetArchitecture envL.
Proof.
  intros t envW envL HW HL.
  rewrite (windows_label_of_target envW t HW), (linux_label_of_target envL t HL).
  reflexivity.
Qed.

Lemma C10_windows_linux_same_classification_witness :
  targets Windows.arch_macro Windows.tested msvc_x64 X86_64 /\
  targets Linux.arch_macro Linux.tested gcc_x86_64 X86_64 /\
  Windows.GetArchitecture msvc_x64 = Linux.GetArchitecture gcc_x86_64.
Proof.
  assert (HW : targets Windows.arch_macro Windows.tested msvc_x64 X86_64)
    by (apply (bool_decide_unpack _); vm_compute; exact I).
  assert (HL : targets Linux.arch_macro Linux.tested gcc_x86_64 X86_64)
    by (apply (bool_decide_unpack _); vm_compute; exact I).
  split; [exact HW|]. split; [exact HL|].
  exact (C10_windows_linux_same_classification X86_64 msvc_x64 gcc_x86_64 HW HL).
Defined.

(** * Further properties of the handlers *)

(** ** Strings *)

Lemma string_app_inv_head (p a b : string) : p ++ a = p ++ b -> a = b.
Proof. induction p as [|c p IH]; simpl; [auto | intros [= H]; auto]. Qed.

Lemma documented_label_inj t1 t2 :
  documented_label t1 = documented_label t2 -> t1 = t2.
Proof. destruct t1, t2; simpl; intros H; try reflexivity; discriminate. Qed.

Lemma separator_free_strrchr s :
  separator_free s = true -> GLib.strrchr s GLib.G_DIR_SEPARATOR = None.
Proof.
  induction s as [|c s IH]; simpl; [reflexivity|].
  intros H. apply andb_prop in H as [Hc Hs]. apply negb_true_iff in Hc.
  rewrite (IH Hs). unfold GLib.G_DIR_SEPARATOR. now rewrite Hc.
Qed.

Lemma strrchr_app_last (a b : string) (c : ascii) :
  GLib.strrchr b c = None ->
  GLib.strrchr (a ++ String c b) c = Some (String.length a).
Proof.
  intros Hb. induction a as [|x a IH]; simpl.
  - rewrite Hb, Ascii.eqb_refl. reflexivity.
  - rewrite IH. reflexivity.
Qed.

Lemma substring_app_prefix (a b : string) :
  String.substring 0 (String.length a) (a ++ b) = a.
Proof.
  induction a as [|x a IH]; simpl.
  - now destruct b.
  - now rewrite IH.
Qed.

Lemma get_app_right (a b : string) (k : nat) :
  String.get (String.length a + k) (a ++ b) = String.get k b.
Proof. induction a as [|x a IH]; simpl; auto. Qed.

(** ** The chain, read backwards *)

(** X1. Each label is returned exactly under the condition of its branch
    of the chain: the first tested macro that is defined decides, whatever
    later ones are defined too. *)
Theorem X1_first_defined_macro_decides :
  forall envW envL : gset string,
    ((Windows.GetArchitecture envW = "64" <-> "_M_X64" ∈ envW) /\
     (Windows.GetArchitecture envW = "32" <->
        ("_M_X64" ∉ envW) /\ "_M_IX86" ∈ envW) /\
     (Windows.GetArchitecture envW = "arm64" <->
        ("_M_X64" ∉ envW) /\ ("_M_IX86" ∉ envW) /\ "_M_ARM64" ∈ envW) /\
     (Windows.GetArchitecture envW = "arm32" <->
        ("_M_X64" ∉ envW) /\ ("_M_IX86" ∉ envW) /\ ("_M_ARM64" ∉ envW) /\
        "_M_ARM" ∈ envW)) /\
    ((Linux.GetArchitecture envL = "64" <-> "__x86_64__" ∈ envL) /\
     (Linux.GetArchitecture envL = "32" <->
        ("__x86_64__" ∉ envL) /\ "__i386__" ∈ envL) /\
     (Linux.GetArchitecture envL = "arm64" <->
        ("__x86_64__" ∉ envL) /\ ("__i386__" ∉ envL) /\ "__aarch64__" ∈ envL) /\
     (Linux.GetArchitecture envL = "arm32" <->
        ("__x86_64__" ∉ envL) /\ ("__i386__" ∉ envL) /\ ("__aarch64__" ∉ envL) /\
        "__arm__" ∈ envL)).
Proof.
  intros envW envL.
  rewrite windows_GetArchitecture_chain, linux_GetArchitecture_chain.
  split; repeat case_bool_decide;
    repeat split; intros; try discriminate; tauto.
Qed.

(** X2. Builds for different architecture classes never answer with the
    same directory: the answers to "geResPath" of two builds are equal
    exactly when the classes are (on Linux, for the same [__FILE__]). *)
Theorem X2_distinct_classes_distinct_paths :
  forall (t1 t2 : ArchitectureClass) (envW1 envW2 envL1 envL2 : gset string)
         (file : string) (callW : Windows.MethodCall)
         (result : Windows.MethodResult) (callL : Linux.FlMethodCall),
    targets Windows.arch_macro Windows.tested envW1 t1 ->
    targets Windows.arch_macro Windows.tested envW2 t2 ->
    targets Linux.arch_macro Linux.tested envL1 t1 ->
    targets Linux.arch_macro Linux.tested envL2 t2 ->
    Windows.method_name callW = "geResPath" ->
    Linux.name callL = "geResPath" ->
    (Windows.HandleMethodCall envW1 callW result =
     Windows.HandleMethodCall envW2 callW result <-> t1 = t2) /\
    (Linux.method_call_handler envL1 file callL =
     Linux.method_call_handler envL2 file callL <-> t1 = t2).
Proof.
  intros t1 t2 envW1 envW2 envL1 envL2 file callW result callL
         HW1 HW2 HL1 HL2 HnW HnL.
  rewrite !(windows_handler_geResPath _ callW result HnW),
          !(linux_handler_geResPath _ file callL HnL),
          (windows_label_of_target _ _ HW1), (windows_label_of_target _ _ HW2),
          (linux_label_of_target _ _ HL1), (linux_label_of_target _ _ HL2).
  split; split; try (intros ->; reflexivity); intros H.
  - apply app_inv_head in H. injection H as H.
    apply string_app_inv_head in H. now apply documented_label_inj.
  - unfold Linux.fl_method_call_respond in H. injection H as H.
    apply app_inv_head in H. injection H as H.
    apply string_app_inv_head in H.
    apply (string_app_inv_head "/resources/") in H.
    now apply documented_label_inj.
Qed.

Lemma X2_distinct_classes_distinct_paths_witness :
  Windows.HandleMethodCall msvc_x64 geResPath_win [] <>
  Windows.HandleMethodCall msvc_arm64 geResPath_win [] /\
  Linux.method_call_handler gcc_x86_64 "/opt/app/linux/plugin.cc"
    (linux_call "geResPath") <>
  Linux.method_call_handler gcc_aarch64 "/opt/app/linux/plugin.cc"
    (linux_call "geResPath").
Proof.
  assert (HW1 : targets Windows.arch_macro Windows.tested msvc_x64 X86_64)
    by (apply (bool_decide_unpack _); vm_compute; exact I).
  assert (HW2 : targets Windows.arch_macro Windows.tested msvc_arm64 ARM_64)
    by (apply (bool_decide_unpack _); vm_compute; exact I).
  assert (HL1 : targets Linux.arch_macro Linux.tested gcc_x86_64 X86_64)
    by (apply (bool_decide_unpack _); vm_compute; exact I).
  assert (HL2 : targets Linux.arch_macro Linux.tested gcc_aarch64 ARM_64)
    by (apply (bool_decide_unpack _); vm_compute; exact I).
  destruct (X2_distinct_classes_distinct_paths X86_64 ARM_64
              msvc_x64 msvc_arm64 gcc_x86_64 gcc_aarch64
              "/opt/app/linux/plugin.cc" geResPath_win [] (linux_call "geResPath")
              HW1 HW2 HL1 HL2 eq_refl eq_refl) as [HW HL].
  split; intros E; [apply HW in E | apply HL in E]; discriminate.
Defined.

(** ** The directory of [__FILE__] *)

Lemma string_app_cons (x : ascii) (a b : string) :
  String x a ++ b = String x (a ++ b).
Proof. reflexivity. Qed.

Lemma string_app_assoc (a b c : string) : (a ++ b) ++ c = a ++ b ++ c.
Proof.
  induction a as [|x a IH]; [reflexivity|].
  now rewrite !string_app_cons, IH.
Qed.

Lemma string_length_app (a b : string) :
  String.length (a ++ b) = (String.length a + String.length b)%nat.
Proof.
  induction a as [|x a IH]; [reflexivity|].
  rewrite string_app_cons. simpl. now rewrite IH.
Qed.

Lemma separators_snoc n : separators (S n) = separators n ++ "/".
Proof.
  induction n as [|n IH]; [reflexivity|].
  change (separators (S (S n))) with (String "/" (separators (S n))).
  rewrite IH at 1. reflexivity.
Qed.

Lemma separators_length n : String.length (separators n) = n.
Proof. induction n as [|n IH]; simpl; [reflexivity | now rewrite IH]. Qed.

Lemma get_separators m b : forall i,
  (i < m)%nat -> String.get i (separators m ++ b) = Some "/"%char.
Proof.
  induction m as [|m IH]; intros i Hi; [lia|].
  destruct i as [|i]; simpl; [reflexivity|]. apply IH. lia.
Qed.

(** Stepping back over a run of separators that follows a byte which is
    none. *)
Lemma skip_separators_run d c n base : forall k,
  Ascii.eqb c "/" = false ->
  (k <= n)%nat ->
  GLib.skip_separators (d ++ String c (separators (S n) ++ base))
    (String.length d + S k) = String.length d.
Proof.
  intros k Hc. induction k as [|k IH]; intros Hk.
  - replace (String.length d + 1)%nat with (S (String.length d)) by lia.
    cbn [GLib.skip_separators].
    replace (S (String.length d)) with (String.length d + 1)%nat at 1 by lia.
    rewrite get_app_right. cbn [String.get separators String.append].
    simpl GLib.G_IS_DIR_SEPARATOR.
    destruct (String.length d) as [|m] eqn:E; [reflexivity|].
    cbn [GLib.skip_separators].
    replace (S m) with (String.length d + 0)%nat at 1 by lia.
    rewrite get_app_right. simpl. unfold GLib.G_DIR_SEPARATOR. now rewrite Hc.
  - replace (String.length d + S (S k))%nat with (S (String.length d + S k)) by lia.
    cbn [GLib.skip_separators].
    replace (S (String.length d + S k)) with (String.length d + S (S k))%nat at 1 by lia.
    rewrite get_app_right. cbn [String.get].
    rewrite get_separators by lia. simpl GLib.G_IS_DIR_SEPARATOR.
    apply IH. lia.
Qed.

(** The directory of a file below a directory [d ++ [c]] that does not
    end in a separator: the run of separators before the base name is
    dropped. *)
Lemma dirname_of_file_in_directory d c n base :
  Ascii.eqb c "/" = false ->
  separator_free base = true ->
  GLib.g_path_get_dirname (d ++ String c (separators (S n) ++ base)) =
  d ++ String c "".
Proof.
  intros Hc Hbase. unfold GLib.g_path_get_dirname.
  assert (Hlast : GLib.strrchr (d ++ String c (separators (S n) ++ base))
                    GLib.G_DIR_SEPARATOR = Some (String.length d + S n)%nat).
  { rewrite separators_snoc, string_app_assoc.
    change (d ++ String c (separators n ++ "/" ++ base))
      with (d ++ (String c (separators n)) ++ String "/" base).
    rewrite <- string_app_assoc.
    rewrite (strrchr_app_last _ base "/" (separator_free_strrchr base Hbase)).
    rewrite string_length_app. simpl. now rewrite separators_length. }
  rewrite Hlast, (skip_separators_run d c n base n Hc (le_n n)).
  change (d ++ String c (separators (S n) ++ base))
    with (d ++ (String c "") ++ (separators (S n) ++ base)).
  rewrite <- string_app_assoc.
  replace (1 + String.length d)%nat with (String.length (d ++ String c ""))
    by (rewrite string_length_app; simpl; lia).
  apply substring_app_prefix.
Qed.

Lemma skip_separators_root n base : forall k,
  (k <= n)%nat ->
  GLib.skip_separators (separators (S n) ++ base) k = 0%nat.
Proof.
  induction k as [|k IH]; intros Hk; [reflexivity|].
  cbn [GLib.skip_separators]. rewrite get_separators by lia.
  simpl GLib.G_IS_DIR_SEPARATOR. apply IH. lia.
Qed.

(** The directory of a file of the root directory is the root. *)
Lemma dirname_of_file_in_root n base :
  separator_free base = true ->
  GLib.g_path_get_dirname (separators (S n) ++ base) = "/".
Proof.
  intros Hbase. unfold GLib.g_path_get_dirname.
  assert (Hlast : GLib.strrchr (separators (S n) ++ base) GLib.G_DIR_SEPARATOR
                  = Some n).
  { rewrite separators_snoc, string_app_assoc.
    change (separators n ++ "/" ++ base) with (separators n ++ String "/" base).
    rewrite (strrchr_app_last _ base "/" (separator_free_strrchr base Hbase)).
    now rewrite separators_length. }
  rewrite Hlast, (skip_separators_root n base n (le_n n)).
  change (separators (S n) ++ base) with (String "/" (separators n ++ base)).
  simpl. now destruct (separators n ++ base).
Qed.

(** The directory of a name without separator is ".". *)
Lemma dirname_of_bare_name file :
  separator_free file = true -> GLib.g_path_get_dirname file = ".".
Proof.
  intros H. unfold GLib.g_path_get_dirname.
  now rewrite (separator_free_strrchr file H).
Qed.

(** ** The paths answered *)

(** X3. The segments of the path answered to "geResPath": on Windows
    exactly "resources" and the label; on Linux those of the directory of
    [__FILE__] followed by "resources" and the label, and the path is
    absolute exactly when [__FILE__] is. *)
Theorem X3_segments_of_the_paths :
  forall (envW envL : gset string) (file : string)
         (callW : Windows.MethodCall) (result : Windows.MethodResult)
         (callL : Linux.FlMethodCall),
    Windows.method_name callW = "geResPath" ->
    Linux.name callL = "geResPath" ->
    (exists path,
        Windows.HandleMethodCall envW callW result =
          (result ++ [Windows.ReplySuccess (Windows.EncodableString path)])%list /\
        path_segments path = ["resources"; Windows.GetArchitecture envW]) /\
    (exists path,
        Linux.responses (Linux.method_call_handler envL file callL) =
          (Linux.responses callL ++
             [Linux.FlMethodSuccessResponse (Linux.FlString path)])%list /\
        path_segments path =
          (path_segments (GLib.g_path_get_dirname file) ++
             ["resources"; Linux.GetArchitecture envL])%list /\
        GLib.g_path_is_absolute path = GLib.g_path_is_absolute file).
Proof.
  intros envW envL file callW result callL HW HL. split.
  - rewrite (windows_handler_geResPath envW callW result HW).
    eexists. split; [reflexivity|].
    change ("resources/" ++ Windows.GetArchitecture envW)
      with ("resources" ++ String "/" (Windows.GetArchitecture envW)).
    rewrite path_segments_app, (path_segments_separator_free (Windows.GetArchitecture envW)).
    + reflexivity.
    + apply label_separator_free, windows_label_in_labels.
  - rewrite (linux_handler_geResPath envL file callL HL).
    eexists. split; [reflexivity|]. split.
    + change (GLib.g_path_get_dirname file ++ "/resources/" ++ Linux.GetArchitecture envL)
        with (GLib.g_path_get_dirname file ++
                String "/" ("resources" ++ String "/" (Linux.GetArchitecture envL))).
      rewrite !path_segments_app,
        (path_segments_separator_free (Linux.GetArchitecture envL)).
      * reflexivity.
      * apply label_separator_free, linux_label_in_labels.
    + apply dirname_anchor_absolute.
Qed.

Lemma X3_segments_of_the_paths_witness :
  exists pathW pathL,
    Windows.HandleMethodCall msvc_x64 geResPath_win [] =
      [Windows.ReplySuccess (Windows.EncodableString pathW)] /\
    path_segments pathW = ["resources"; "64"] /\
    Linux.responses (Linux.method_call_handler gcc_aarch64
                       "/opt/app/linux/plugin.cc" (linux_call "geResPath")) =
      [Linux.FlMethodSuccessResponse (Linux.FlString pathL)] /\
    path_segments pathL = [""; "opt"; "app"; "linux"; "resources"; "arm64"] /\
    GLib.g_path_is_absolute pathL = true.
Proof.
  destruct (X3_segments_of_the_paths msvc_x64 gcc_aarch64
              "/opt/app/linux/plugin.cc" geResPath_win [] (linux_call "geResPath")
              eq_refl eq_refl)
    as [(pathW & HW & HsW) (pathL & HL & HsL & HaL)].
  exists pathW, pathL. repeat split; assumption.
Defined.

(** X4. When [__FILE__] names a file below a directory, the path answered
    is that directory followed by "/resources/" and the label: the
    resources directory is a sibling of the plugin's source file, however
    many separators precede the file's base name. *)
Theorem X4_linux_path_is_sibling_of_source :
  forall (env : gset string) (d : string) (c : ascii) (n : nat) (base : string)
         (call : Linux.FlMethodCall),
    Ascii.eqb c "/" = false ->
    separator_free base = true ->
    Linux.name call = "geResPath" ->
    Linux.responses
      (Linux.method_call_handler env
         (d ++ String c (separators (S n) ++ base)) call) =
    (Linux.responses call ++
       [Linux.FlMethodSuccessResponse
          (Linux.FlString ((d ++ String c "") ++ "/resources/"
                           ++ Linux.GetArchitecture env))])%list.
Proof.
  intros env d c n base call Hc Hbase Hname.
  rewrite (linux_handler_geResPath env _ call Hname),
    (dirname_of_file_in_directory d c n base Hc Hbase).
  reflexivity.
Qed.

Lemma X4_linux_path_is_sibling_of_source_witness :
  Linux.responses
    (Linux.method_call_handler gcc_x86_64 "/opt/app/linux//plugin.cc"
       (linux_call "geResPath")) =
  [Linux.FlMethodSuccessResponse (Linux.FlString "/opt/app/linux/resources/64")].
Proof.
  exact (X4_linux_path_is_sibling_of_source gcc_x86_64 "/opt/app/linu" "x" 1
           "plugin.cc" (linux_call "geResPath") eq_refl eq_refl eq_refl).
Defined.

(** X5. When [__FILE__] has no directory part at all, the path answered is
    "./resources/" and the label, a path relative to the working
    directory of the process. *)
Theorem X5_linux_bare_source_name :
  forall (env : gset string) (file : string) (call : Linux.FlMethodCall),
    separator_free file = true ->
    Linux.name call = "geResPath" ->
    Linux.responses (Linux.method_call_handler env file call) =
      (Linux.responses call ++
         [Linux.FlMethodSuccessResponse
            (Linux.FlString ("./resources/" ++ Linux.GetArchitecture env))])%list /\
    GLib.g_path_is_absolute ("./resources/" ++ Linux.GetArchitecture env) = false.
Proof.
  intros env file call Hfile Hname.
  rewrite (linux_handler_geResPath env file call Hname),
    (dirname_of_bare_name file Hfile).
  split; reflexivity.
Qed.

Lemma X5_linux_bare_source_name_witness :
  Linux.responses
    (Linux.method_call_handler gcc_aarch64 "plugin.cc" (linux_call "geResPath")) =
  [Linux.FlMethodSuccessResponse (Linux.FlString "./resources/arm64")].
Proof.
  exact (proj1 (X5_linux_bare_source_name gcc_aarch64 "plugin.cc"
                  (linux_call "geResPath") eq_refl eq_refl)).
Defined.

(** X6. When [__FILE__] names a file of the root directory, the directory
    is "/" and the path answered starts with two separators:
    "//resources/" and the label. *)
Theorem X6_linux_source_in_root :
  forall (env : gset string) (n : nat) (base : string) (call : Linux.FlMethodCall),
    separator_free base = true ->
    Linux.name call = "geResPath" ->
    Linux.responses
      (Linux.method_call_handler env (separators (S n) ++ base) call) =
    (Linux.responses call ++
       [Linux.FlMethodSuccessResponse
          (Linux.FlString ("//resources/" ++ Linux.GetArchitecture env))])%list.
Proof.
  intros env n base call Hbase Hname.
  rewrite (linux_handler_geResPath env _ call Hname),
    (dirname_of_file_in_root n base Hbase).
  reflexivity.
Qed.

Lemma X6_linux_source_in_root_witness :
  Linux.responses
    (Linux.method_call_handler gcc_x86_64 "/plugin.cc" (linux_call "geResPath")) =
  [Linux.FlMethodSuccessResponse (Linux.FlString "//resources/64")].
Proof.
  exact (X6_linux_source_in_root gcc_x86_64 0 "plugin.cc"
           (linux_call "geResPath") eq_refl eq_refl).
Defined.

(** ** The two platforms side by side *)

(** X7. Where the platforms part on names: for bytes that read
    "geResPath", a NUL and anything after it, [strcmp] on Linux stops at
    the NUL and the call succeeds, while [std::string::compare] on Windows
    counts every byte and the call is not implemented. *)
Theorem X7_name_with_embedded_NUL :
  forall (envW envL : gset string) (file rest : string)
         (callW : Windows.MethodCall) (result : Windows.MethodResult)
         (callL : Linux.FlMethodCall),
    Windows.method_name callW = "geResPath" ++ String NUL rest ->
    Linux.name callL = "geResPath" ++ String NUL rest ->
    Windows.HandleMethodCall envW callW result =
      (result ++ [Windows.ReplyNotImplemented])%list /\
    Linux.responses (Linux.method_call_handler envL file callL) =
      (Linux.responses callL ++
         [Linux.FlMethodSuccessResponse
            (Linux.FlString (GLib.g_path_get_dirname file ++ "/resources/"
                             ++ Linux.GetArchitecture envL))])%list.
Proof.
  intros envW envL file rest callW result callL HW HL. split.
  - apply windows_handler_other. rewrite HW. discriminate.
  - unfold Linux.method_call_handler, Linux.fl_method_call_get_name.
    rewrite HL. reflexivity.
Qed.

Lemma X7_name_with_embedded_NUL_witness :
  Windows.HandleMethodCall msvc_x64
    {| Windows.method_name := "geResPath" ++ String NUL "x";
       Windows.arguments := Windows.EncodableNull |} [] =
    [Windows.ReplyNotImplemented] /\
  Linux.responses
    (Linux.method_call_handler gcc_x86_64 "/opt/app/linux/plugin.cc"
       (linux_call ("geResPath" ++ String NUL "x"))) =
    [Linux.FlMethodSuccessResponse (Linux.FlString "/opt/app/linux/resources/64")].
Proof.
  exact (X7_name_with_embedded_NUL msvc_x64 gcc_x86_64 "/opt/app/linux/plugin.cc" "x"
           {| Windows.method_name := "geResPath" ++ String NUL "x";
              Windows.arguments := Windows.EncodableNull |} []
           (linux_call ("geResPath" ++ String NUL "x")) eq_refl eq_refl).
Defined.

(** X8. For builds of one architecture class and one method name (a C
    string), the two handlers answer alike: both not implemented, or both
    with success, the Linux path being the Windows path behind the
    directory of [__FILE__] and a separator. *)
Theorem X8_linux_answer_is_anchored_windows_answer :
  forall (t : ArchitectureClass) (envW envL : gset string) (file n : string)
         (callW : Windows.MethodCall) (result : Windows.MethodResult)
         (callL : Linux.FlMethodCall),
    targets Windows.arch_macro Windows.tested envW t ->
    targets Linux.arch_macro Linux.tested envL t ->
    c_string n = true ->
    Windows.method_name callW = n ->
    Linux.name callL = n ->
    (Windows.HandleMethodCall envW callW result =
       (result ++ [Windows.ReplyNotImplemented])%list /\
     Linux.responses (Linux.method_call_handler envL file callL) =
       (Linux.responses callL ++ [Linux.FlMethodNotImplementedResponse])%list) \/
    (exists path,
        Windows.HandleMethodCall envW callW result =
          (result ++ [Windows.ReplySuccess (Windows.EncodableString path)])%list /\
        Linux.responses (Linux.method_call_handler envL file callL) =
          (Linux.responses callL ++
             [Linux.FlMethodSuccessResponse
                (Linux.FlString (GLib.g_path_get_dirname file ++ "/" ++ path))])%list).
Proof.
  intros t envW envL file n callW result callL HtW HtL Hc HnW HnL.
  destruct (decide (n = "geResPath")) as [E|E].
  - right. exists ("resources/" ++ documented_label t). split.
    + rewrite windows_handler_geResPath by congruence.
      now rewrite (windows_label_of_target envW t HtW).
    + rewrite linux_handler_geResPath by congruence.
      now rewrite (linux_label_of_target envL t HtL).
  - left. split.
    + apply windows_handler_other. congruence.
    + rewrite linux_handler_other; [reflexivity | congruence | congruence].
Qed.

Lemma X8_linux_answer_is_anchored_windows_answer_witness :
  exists path,
    Windows.HandleMethodCall msvc_arm64 geResPath_win [] =
      [Windows.ReplySuccess (Windows.EncodableString path)] /\
    Linux.responses
      (Linux.method_call_handler gcc_aarch64 "/opt/app/linux/plugin.cc"
         (linux_call "geResPath")) =
      [Linux.FlMethodSuccessResponse (Linux.FlString ("/opt/app/linux" ++ "/" ++ path))].
Proof.
  assert (HW : targets Windows.arch_macro Windows.tested msvc_arm64 ARM_64)
    by (apply (bool_decide_unpack _); vm_compute; exact I).
  assert (HL : targets Linux.arch_macro Linux.tested gcc_aarch64 ARM_64)
    by (apply (bool_decide_unpack _); vm_compute; exact I).
  destruct (X8_linux_answer_is_anchored_windows_answer ARM_64 msvc_arm64 gcc_aarch64
              "/opt/app/linux/plugin.cc" "geResPath" geResPath_win []
              (linux_call "geResPath") HW HL eq_refl eq_refl eq_refl)
    as [[HN _] | (path & HWp & HLp)].
  - vm_compute in HN. discriminate HN.
  - exists path. split; assumption.
Defined.

(** * Registration *)

(** ** Windows *)

Lemma windows_register_messenger env registrar :
  WindowsPlugin.messenger (WindowsPlugin.RegisterWithRegistrar env registrar) =
  <["flutter_v2ray_client_desktop" :=
      {| WindowsPlugin.plugin_pointer := WindowsPlugin.make_unique registrar;
         WindowsPlugin.on_call :=
           fun call result => Windows.HandleMethodCall env call result |}]>
    (WindowsPlugin.messenger registrar).
Proof. reflexivity. Qed.

Lemma windows_register_plugins env registrar :
  WindowsPlugin.plugins (WindowsPlugin.RegisterWithRegistrar env registrar) =
  {[ WindowsPlugin.make_unique registrar ]} ∪ WindowsPlugin.plugins registrar.
Proof. reflexivity. Qed.

Lemma windows_receive_after_register env registrar call result :
  WindowsPlugin.receive (WindowsPlugin.RegisterWithRegistrar env registrar)
    "flutter_v2ray_client_desktop" call result =
  Some (Windows.HandleMethodCall env call result).
Proof.
  unfold WindowsPlugin.receive.
  rewrite windows_register_messenger, lookup_insert_eq, windows_register_plugins.
  cbn [WindowsPlugin.plugin_pointer WindowsPlugin.on_call].
  rewrite bool_decide_eq_true_2 by set_solver. reflexivity.
Qed.

(** X9. After [RegisterWithRegistrar], whatever the registrar held before
    (an earlier registration of this plugin included), a method call on
    the channel "flutter_v2ray_client_desktop" runs [HandleMethodCall] on
    a plugin the registrar owns; the handlers of all other channels are
    the ones they were; and the registrar owns one plugin object more. *)
Theorem X9_windows_registration_installs_handler :
  forall (env : gset string) (registrar : WindowsPlugin.PluginRegistrarWindows)
         (call : Windows.MethodCall) (result : Windows.MethodResult),
    let registered := WindowsPlugin.RegisterWithRegistrar env registrar in
    WindowsPlugin.receive registered "flutter_v2ray_client_desktop" call result =
      Some (Windows.HandleMethodCall env call result) /\
    (forall channel : string,
        channel <> "flutter_v2ray_client_desktop" ->
        WindowsPlugin.messenger registered !! channel =
        WindowsPlugin.messenger registrar !! channel) /\
    size (WindowsPlugin.plugins registered) =
      S (size (WindowsPlugin.plugins registrar)).
Proof.
  intros env registrar call result registered. subst registered.
  split; [apply windows_receive_after_register|]. split.
  - intros channel Hc. rewrite windows_register_messenger.
    apply lookup_insert_ne. congruence.
  - rewrite windows_register_plugins, size_union, size_singleton; [reflexivity|].
    pose proof (is_fresh (WindowsPlugin.plugins registrar)) as Hf.
    unfold WindowsPlugin.make_unique. set_solver.
Qed.

(** X10. Registration keeps every handler's plugin alive: if each handler
    of the messenger points to a plugin the registrar owns, the same holds
    after [RegisterWithRegistrar], and the registrar gives up no plugin. *)
Theorem X10_windows_registration_keeps_handlers_valid :
  forall (env : gset string) (registrar : WindowsPlugin.PluginRegistrarWindows),
    WindowsPlugin.handlers_valid registrar ->
    WindowsPlugin.handlers_valid (WindowsPlugin.RegisterWithRegistrar env registrar) /\
    WindowsPlugin.plugins registrar ⊆
      WindowsPlugin.plugins (WindowsPlugin.RegisterWithRegistrar env registrar).
Proof.
  intros env registrar Hvalid. split.
  - intros channel h. rewrite windows_register_messenger, windows_register_plugins.
    destruct (decide (channel = "flutter_v2ray_client_desktop")) as [->|Hne].
    + rewrite lookup_insert_eq. intros [= <-]. set_solver.
    + rewrite lookup_insert_ne by congruence. intros Hh.
      apply Hvalid in Hh. set_solver.
  - rewrite windows_register_plugins. set_solver.
Qed.

Lemma X10_windows_registration_keeps_handlers_valid_witness :
  WindowsPlugin.handlers_valid
    (WindowsPlugin.RegisterWithRegistrar msvc_x64
       (WindowsPlugin.RegisterWithRegistrar msvc_x64 WindowsPlugin.empty_registrar)).
Proof.
  assert (H0 : WindowsPlugin.handlers_valid WindowsPlugin.empty_registrar).
  { intros channel h. unfold WindowsPlugin.empty_registrar. simpl.
    rewrite lookup_empty. discriminate. }
  pose proof (X10_windows_registration_keeps_handlers_valid msvc_x64
                WindowsPlugin.empty_registrar H0) as [H1 _].
  exact (proj1 (X10_windows_registration_keeps_handlers_valid msvc_x64 _ H1)).
Defined.

(** X11. The C entry point registers the plugin with the registrar of the
    reference it is given, creating the wrapper when there is none: a
    method call on the channel then runs [HandleMethodCall] there, and the
    registrars of all other references are untouched. *)
Theorem X11_windows_c_api_registers_with_given_registrar :
  forall (env : gset string) (registrar : nat)
         (manager : gmap nat WindowsPlugin.PluginRegistrarWindows),
    let manager' :=
      WindowsPlugin.FlutterV2rayClientDesktopPluginCApiRegisterWithRegistrar
        env registrar manager in
    (exists wrapper,
        manager' !! registrar = Some wrapper /\
        forall call result,
          WindowsPlugin.receive wrapper "flutter_v2ray_client_desktop" call result =
          Some (Windows.HandleMethodCall env call result)) /\
    (forall other : nat, other <> registrar ->
        manager' !! other = manager !! other).
Proof.
  intros env registrar manager manager'. subst manager'.
  unfold WindowsPlugin.FlutterV2rayClientDesktopPluginCApiRegisterWithRegistrar,
    WindowsPlugin.GetRegistrar.
  destruct (manager !! registrar) as [wrapper|] eqn:E.
  - split.
    + eexists. split; [apply lookup_insert_eq|].
      intros call result. apply windows_receive_after_register.
    + intros other Hne. apply lookup_insert_ne. congruence.
  - split.
    + eexists. split; [apply lookup_insert_eq|].
      intros call result. apply windows_receive_after_register.
    + intros other Hne. rewrite !lookup_insert_ne by congruence. reflexivity.
Qed.

(** ** Linux *)

Lemma g_object_new_fresh heap :
  heap !! (GObject.g_object_new heap).1 = None.
Proof. apply not_elem_of_dom_1, is_fresh. Qed.

Lemma g_object_ref_alive object n heap :
  heap !! object = Some n ->
  GObject.g_object_ref object heap = <[object := S n]> heap.
Proof. unfold GObject.g_object_ref. now intros ->. Qed.

Lemma g_object_unref_more object n heap :
  heap !! object = Some (S (S n)) ->
  GObject.g_object_unref object heap = <[object := S n]> heap.
Proof. unfold GObject.g_object_unref. now intros ->. Qed.

Lemma g_object_unref_last object heap :
  heap !! object = Some 1%nat ->
  GObject.g_object_unref object heap = delete object heap.
Proof. unfold GObject.g_object_unref. now intros ->. Qed.

(** The state after registration on a channel without handler. *)
Lemma linux_register_first env file st :
  LinuxPlugin.channels st !! "flutter_v2ray_client_desktop" = None ->
  LinuxPlugin.flutter_v2ray_client_desktop_plugin_register_with_registrar env file st =
  let plugin := fresh (dom (LinuxPlugin.objects st)) in
  {| LinuxPlugin.objects := <[plugin := 1%nat]> (LinuxPlugin.objects st);
     LinuxPlugin.channels :=
       <["flutter_v2ray_client_desktop" :=
           {| LinuxPlugin.handler := Linux.method_call_handler env file;
              LinuxPlugin.user_data := plugin;
              LinuxPlugin.destroy_notify := Some GObject.g_object_unref |}]>
         (LinuxPlugin.channels st) |}.
Proof.
  intros Hnone.
  unfold LinuxPlugin.flutter_v2ray_client_desktop_plugin_register_with_registrar,
    GObject.g_object_new, LinuxPlugin.fl_method_channel_set_method_call_handler,
    LinuxPlugin.close_channel.
  cbn [LinuxPlugin.channels LinuxPlugin.objects]. rewrite Hnone.
  cbn [LinuxPlugin.channels LinuxPlugin.objects].
  unfold GObject.g_object_ref. rewrite lookup_insert_eq, insert_insert_eq.
  unfold GObject.g_object_unref. rewrite lookup_insert_eq, insert_insert_eq.
  reflexivity.
Qed.

(** X12. Registration on a channel that has no handler yet creates one
    plugin object and leaves it with exactly one reference, the one the
    handler holds as its [user_data]; every other object keeps its count.
    When the channel is closed later, that reference is dropped, the
    plugin is finalised and the state is the one before registration:
    nothing leaks. *)
Theorem X12_linux_registration_holds_one_reference :
  forall (env : gset string) (file : string) (st : LinuxPlugin.State),
    LinuxPlugin.channels st !! "flutter_v2ray_client_desktop" = None ->
    let registered :=
      LinuxPlugin.flutter_v2ray_client_desktop_plugin_register_with_registrar
        env file st in
    (exists plugin h,
        LinuxPlugin.objects st !! plugin = None /\
        LinuxPlugin.objects registered = <[plugin := 1%nat]> (LinuxPlugin.objects st) /\
        LinuxPlugin.channels registered !! "flutter_v2ray_client_desktop" = Some h /\
        LinuxPlugin.user_data h = plugin) /\
    LinuxPlugin.close_channel "flutter_v2ray_client_desktop" registered = st.
Proof.
  intros env file st Hnone registered. subst registered.
  rewrite (linux_register_first env file st Hnone). cbn zeta.
  pose proof (not_elem_of_dom_1 _ _ (is_fresh (dom (LinuxPlugin.objects st)))) as Hfresh.
  split.
  - eexists _, _. cbn [LinuxPlugin.channels LinuxPlugin.objects].
    split; [exact Hfresh|]. split; [reflexivity|].
    split; [apply lookup_insert_eq | reflexivity].
  - unfold LinuxPlugin.close_channel.
    cbn [LinuxPlugin.channels LinuxPlugin.objects]. rewrite lookup_insert_eq.
    unfold LinuxPlugin.release, GObject.g_object_unref.
    cbn [LinuxPlugin.destroy_notify LinuxPlugin.user_data].
    rewrite lookup_insert_eq, (delete_insert_id _ _ _ Hfresh),
      (delete_insert_id _ _ _ Hnone).
    now destruct st.
Qed.

Lemma X12_linux_registration_holds_one_reference_witness :
  LinuxPlugin.close_channel "flutter_v2ray_client_desktop"
    (LinuxPlugin.flutter_v2ray_client_desktop_plugin_register_with_registrar
       gcc_x86_64 "/opt/app/linux/plugin.cc"
       {| LinuxPlugin.objects := {[ 0%nat := 3%nat ]}; LinuxPlugin.channels := ∅ |}) =
  {| LinuxPlugin.objects := {[ 0%nat := 3%nat ]}; LinuxPlugin.channels := ∅ |}.
Proof.
  exact (proj2 (X12_linux_registration_holds_one_reference gcc_x86_64
                  "/opt/app/linux/plugin.cc"
                  {| LinuxPlugin.objects := {[ 0%nat := 3%nat ]};
                     LinuxPlugin.channels := ∅ |}
                  (lookup_empty _))).
Defined.

(** X13. After registration on a channel without handler, a method call
    on the channel runs [method_call_handler]; and registering once more
    releases the first plugin, so that again one plugin object is alive,
    with one reference, and calls are still handled. *)
Theorem X13_linux_registration_and_reregistration :
  forall (env : gset string) (file : string) (st : LinuxPlugin.State)
         (method_call : Linux.FlMethodCall),
    LinuxPlugin.channels st !! "flutter_v2ray_client_desktop" = None ->
    let once :=
      LinuxPlugin.flutter_v2ray_client_desktop_plugin_register_with_registrar
        env file st in
    let twice :=
      LinuxPlugin.flutter_v2ray_client_desktop_plugin_register_with_registrar
        env file once in
    LinuxPlugin.receive once "flutter_v2ray_client_desktop" method_call =
      Some (Linux.method_call_handler env file method_call) /\
    LinuxPlugin.receive twice "flutter_v2ray_client_desktop" method_call =
      Some (Linux.method_call_handler env file method_call) /\
    (exists plugin,
        LinuxPlugin.objects st !! plugin = None /\
        LinuxPlugin.objects twice = <[plugin := 1%nat]> (LinuxPlugin.objects st)).
Proof.
  intros env file st method_call Hnone once twice.
  assert (Honce : once = _) by exact (linux_register_first env file st Hnone).
  cbn zeta in Honce.
  set (p1 := fresh (dom (LinuxPlugin.objects st))) in *.
  assert (Hp1 : LinuxPlugin.objects st !! p1 = None)
    by (apply not_elem_of_dom_1, is_fresh).
  split.
  { rewrite Honce. unfold LinuxPlugin.receive.
    cbn [LinuxPlugin.channels LinuxPlugin.objects].
    rewrite lookup_insert_eq. cbn [LinuxPlugin.user_data LinuxPlugin.handler].
    now rewrite lookup_insert_eq. }
  subst twice. rewrite Honce.
  unfold LinuxPlugin.flutter_v2ray_client_desktop_plugin_register_with_registrar,
    GObject.g_object_new, LinuxPlugin.fl_method_channel_set_method_call_handler,
    LinuxPlugin.close_channel.
  cbn [LinuxPlugin.channels LinuxPlugin.objects].
  set (p2 := fresh (dom (<[p1 := 1%nat]> (LinuxPlugin.objects st)))).
  assert (Hp2 : <[p1 := 1%nat]> (LinuxPlugin.objects st) !! p2 = None)
    by (apply not_elem_of_dom_1, is_fresh).
  assert (Hne : p1 <> p2).
  { intros E. rewrite <- E, lookup_insert_eq in Hp2. discriminate. }
  assert (Hp2' : LinuxPlugin.objects st !! p2 = None)
    by (rewrite lookup_insert_ne in Hp2 by exact Hne; exact Hp2).
  rewrite lookup_insert_eq.
  cbn [LinuxPlugin.channels LinuxPlugin.objects].
  unfold LinuxPlugin.release.
  cbn [LinuxPlugin.destroy_notify LinuxPlugin.user_data].
  rewrite (g_object_ref_alive p2 1 _ (lookup_insert_eq _ _ _)), insert_insert_eq.
  rewrite (g_object_unref_last p1 (<[p2 := 2%nat]> (<[p1 := 1%nat]> (LinuxPlugin.objects st)))).
  2:{ rewrite lookup_insert_ne by congruence. apply lookup_insert_eq. }
  rewrite delete_insert_ne by exact Hne.
  rewrite (delete_insert_id _ _ _ Hp1).
  rewrite (g_object_unref_more p2 0 _ (lookup_insert_eq _ _ _)), insert_insert_eq.
  split.
  - unfold LinuxPlugin.receive. cbn [LinuxPlugin.channels LinuxPlugin.objects].
    rewrite lookup_insert_eq. cbn [LinuxPlugin.user_data LinuxPlugin.handler].
    now rewrite lookup_insert_eq.
  - exists p2. split; [exact Hp2' | reflexivity].
Qed.

Lemma X13_linux_registration_and_reregistration_witness :
  LinuxPlugin.receive
    (LinuxPlugin.flutter_v2ray_client_desktop_plugin_register_with_registrar
       gcc_x86_64 "/opt/app/linux/plugin.cc"
       (LinuxPlugin.flutter_v2ray_client_desktop_plugin_register_with_registrar
          gcc_x86_64 "/opt/app/linux/plugin.cc"
          {| LinuxPlugin.objects := ∅; LinuxPlugin.channels := ∅ |}))
    "flutter_v2ray_client_desktop" (linux_call "geResPath") =
  Some (Linux.method_call_handler gcc_x86_64 "/opt/app/linux/plugin.cc"
          (linux_call "geResPath")).
Proof.
  exact (proj1 (proj2 (X13_linux_registration_and_reregistration gcc_x86_64
                         "/opt/app/linux/plugin.cc"
                         {| LinuxPlugin.objects := ∅; LinuxPlugin.channels := ∅ |}
                         (linux_call "geResPath") (lookup_empty _)))).
Defined.
